(** * Playbooks web app: the runs-list filter bar and the playbook detail page

    A shallow embedding of two view components of the Playbooks plugin:

    - [Filters] (webapp/src/components/backstage/runs_list/filters.tsx),
      the filter bar above a list of playbook runs;
    - [Playbook], the playbook detail page.

    A JavaScript object is a finite map from property names to values, a
    React state cell is a field of an explicit state record, an event
    handler is a function on that state, and a call of the REST client is
    an entry appended to a log. *)

From Stdlib Require Import ZArith Bool List.
From stdpp Require Import base option strings gmap.
Import ListNotations.

Open Scope string_scope.

(** ** JavaScript values held by the fetch parameters *)

(** [PlaybookRunStatus] of src/types/playbook_run. *)
Inductive PlaybookRunStatus : Type :=
  | InProgress
  | Finished.

Inductive JsVal : Type :=
  | VUndefined
  | VStr (s : string)
  | VNum (n : Z)
  | VArr (l : list PlaybookRunStatus).

(** [o.k]: reading a property that the object does not have gives
    [undefined]. *)
Definition get (o : gmap string JsVal) (k : string) : JsVal :=
  default VUndefined (o !! k).

(** Truthiness of a value, as [Boolean(v)], [!v] and [v ? a : b] use it. *)
Definition truthy (v : JsVal) : bool :=
  match v with
  | VUndefined => false
  | VStr s => negb (String.eqb s "")
  | VNum n => negb (Z.eqb n 0)
  | VArr _ => true
  end.

(** [v === s] for a string literal [s]. *)
Definition strict_eq_str (v : JsVal) (s : string) : bool :=
  match v with
  | VStr t => String.eqb t s
  | _ => false
  end.

(** [v?.length ?? 0]. *)
Definition length_or_0 (v : JsVal) : Z :=
  match v with
  | VArr l => Z.of_nat (length l)
  | VStr s => Z.of_nat (String.length s)
  | _ => 0%Z
  end.

(** An optional argument [x?: string] that was left out is [undefined]. *)
Definition of_opt_string (x : option string) : JsVal :=
  match x with
  | Some s => VStr s
  | None => VUndefined
  end.

(** An optional boolean ([checked?: boolean], [fixedTeam?: boolean]) used
    as a condition. *)
Definition opt_true (b : option bool) : bool :=
  match b with
  | Some true => true
  | _ => false
  end.

(** ** The filter bar *)

Module FiltersBar.

(** The part of [UserProfile] that the filter bar reads. *)
Record UserProfile : Type := { user_id : string }.

Record Team : Type := { team_id : string; team_name : string }.

Record Props : Type := {
  teams : list Team;            (* useSelector(getMyTeams) *)
  fixedTeam : option bool;
  fixedPlaybook : option bool;
  fixedFinished : option bool
}.

(** The state the component works on: the fetch parameters, owned by the
    parent and reached through [setFetchParams], and the three local
    toggles. *)
Record State : Type := {
  fetchParams : gmap string JsVal;
  profileSelectorToggle : bool;
  teamSelectorToggle : bool;
  playbookSelectorToggle : bool
}.

Definition Handler : Type := State -> State.

(** [setFetchParams(f)] with an updater function [f]. *)
Definition setFetchParams (f : gmap string JsVal -> gmap string JsVal) : Handler :=
  fun st =>
    {| fetchParams := f (fetchParams st);
       profileSelectorToggle := profileSelectorToggle st;
       teamSelectorToggle := teamSelectorToggle st;
       playbookSelectorToggle := playbookSelectorToggle st |}.

Definition setProfileSelectorToggle (b : bool) : Handler :=
  fun st =>
    {| fetchParams := fetchParams st;
       profileSelectorToggle := b;
       teamSelectorToggle := teamSelectorToggle st;
       playbookSelectorToggle := playbookSelectorToggle st |}.

Definition setTeamSelectorToggle (b : bool) : Handler :=
  fun st =>
    {| fetchParams := fetchParams st;
       profileSelectorToggle := profileSelectorToggle st;
       teamSelectorToggle := b;
       playbookSelectorToggle := playbookSelectorToggle st |}.

Definition setPlaybookSelectorToggle (b : bool) : Handler :=
  fun st =>
    {| fetchParams := fetchParams st;
       profileSelectorToggle := profileSelectorToggle st;
       teamSelectorToggle := teamSelectorToggle st;
       playbookSelectorToggle := b |}.

Definition searchDebounceDelayMilliseconds : Z := 300.

(** [{...oldParams, k: v, page: 0}]: a new object with the properties of
    the old one, then [k], then [page]. *)
Definition spread_with (oldParams : gmap string JsVal) (k : string) (v : JsVal)
  : gmap string JsVal :=
  <["page" := VNum 0]> (<[k := v]> oldParams).

Definition setMyRunsOnly (checked : option bool) : Handler :=
  setFetchParams (fun oldParams =>
    spread_with oldParams "participant_or_follower_id"
      (if opt_true checked then VStr "me" else VStr "")).

Definition setOwnerId (userType : option string) (user : option UserProfile) : Handler :=
  setFetchParams (fun oldParams =>
    spread_with oldParams "owner_user_id" (of_opt_string (user_id <$> user))).

Definition setTeamId (teamId : option string) : Handler :=
  setFetchParams (fun oldParams =>
    spread_with oldParams "team_id" (of_opt_string teamId)).

Definition setPlaybookId (playbookId : option string) : Handler :=
  setFetchParams (fun oldParams =>
    spread_with oldParams "playbook_id" (of_opt_string playbookId)).

Definition setFinishedRuns (checked : option bool) : Handler :=
  let statuses :=
    if opt_true checked then [InProgress; Finished] else [InProgress] in
  setFetchParams (fun oldParams =>
    spread_with oldParams "statuses" (VArr statuses)).

Definition setSearchTerm (term : string) : Handler :=
  setFetchParams (fun oldParams =>
    spread_with oldParams "search_term" (VStr term)).

(** The reset handlers read the toggle of the render that created them:
    the argument is that captured value. *)
Definition resetOwner (profileSelectorToggle : bool) : Handler :=
  fun st => setProfileSelectorToggle (negb profileSelectorToggle)
              (setOwnerId None None st).

Definition resetTeam (teamSelectorToggle : bool) : Handler :=
  fun st => setTeamSelectorToggle (negb teamSelectorToggle)
              (setTeamId None st).

Definition resetPlaybook (playbookSelectorToggle : bool) : Handler :=
  fun st => setPlaybookSelectorToggle (negb playbookSelectorToggle)
              (setPlaybookId None st).

(** *** What the component renders *)

(** [debounce(f, wait)] of the npm package of that name, kept as the pair
    it was called with. *)
Record Debounced : Type := {
  debounced_fn : string -> Handler;
  debounced_wait : Z
}.

Definition debounce (f : string -> Handler) (wait : Z) : Debounced :=
  {| debounced_fn := f; debounced_wait := wait |}.

Record SearchInputProps : Type := {
  search_testId : string;
  search_default : JsVal;
  onSearch : Debounced
}.

Record CheckboxInputProps : Type := {
  checkbox_testId : string;
  checked : bool;
  onChange : option bool -> Handler
}.

(** [controlComponent]: the select control and, when [showCustomReset]
    holds, an anchor "Reset to all ..." whose click is [onCustomReset]. *)
Record ControlView : Type := {
  resetAnchor : option (string * Handler)
}.

Definition controlComponent (showCustomReset : bool) (onCustomReset : Handler)
    (filterName : string) : ControlView :=
  {| resetAnchor :=
       if showCustomReset
       then Some ("Reset to all " ++ filterName, onCustomReset)
       else None |}.

Definition OwnerControlComponent (showCustomReset : bool) (onCustomReset : Handler) :=
  controlComponent showCustomReset onCustomReset "owners".

Definition TeamControlComponent (showCustomReset : bool) (onCustomReset : Handler) :=
  controlComponent showCustomReset onCustomReset "teams".

Definition PlaybookControlComponent (showCustomReset : bool) (onCustomReset : Handler) :=
  controlComponent showCustomReset onCustomReset "playbooks".

(** A selector ([ProfileSelector], [PlaybookSelector], [TeamSelector]) as
    the filter bar configures it; [customControl] is the control component
    applied to the [customControlProps]. *)
Record SelectorProps (A : Type) : Type := {
  selector_testId : string;
  selectedId : JsVal;
  customControl : ControlView;
  controlledOpenToggle : bool;
  onSelectedChange : A -> Handler
}.

Arguments selector_testId {A} _.
Arguments selectedId {A} _.
Arguments customControl {A} _.
Arguments controlledOpenToggle {A} _.
Arguments onSelectedChange {A} _.

Record View : Type := {
  searchInput : SearchInputProps;
  myRunsOnlyCheckbox : CheckboxInputProps;
  finishedRunsCheckbox : option CheckboxInputProps;
  ownerSelector : SelectorProps (option string * option UserProfile);
  playbookSelector : option (SelectorProps (option string));
  teamSelector : option (SelectorProps (option string))
}.

Definition Filters (props : Props) (st : State) : View :=
  let fetchParams := fetchParams st in
  let myRunsOnly :=
    strict_eq_str (get fetchParams "participant_or_follower_id") "me" in
  {| searchInput :=
       {| search_testId := "search-filter";
          search_default := get fetchParams "search_term";
          onSearch := debounce setSearchTerm searchDebounceDelayMilliseconds |};
     myRunsOnlyCheckbox :=
       {| checkbox_testId := "my-runs-only";
          checked := myRunsOnly;
          onChange := setMyRunsOnly |};
     finishedRunsCheckbox :=
       if negb (opt_true (fixedFinished props)) then
         Some {| checkbox_testId := "finished-runs";
                 checked := (1 <? length_or_0 (get fetchParams "statuses"))%Z;
                 onChange := setFinishedRuns |}
       else None;
     ownerSelector :=
       {| selector_testId := "owner-filter";
          selectedId := get fetchParams "owner_user_id";
          customControl :=
            OwnerControlComponent
              (truthy (get fetchParams "owner_user_id"))
              (resetOwner (profileSelectorToggle st));
          controlledOpenToggle := profileSelectorToggle st;
          onSelectedChange := fun a => setOwnerId (fst a) (snd a) |};
     playbookSelector :=
       if negb (opt_true (fixedPlaybook props)) then
         Some {| selector_testId := "playbook-filter";
                 selectedId := get fetchParams "playbook_id";
                 customControl :=
                   PlaybookControlComponent
                     (truthy (get fetchParams "playbook_id"))
                     (resetPlaybook (playbookSelectorToggle st));
                 controlledOpenToggle := playbookSelectorToggle st;
                 onSelectedChange := setPlaybookId |}
       else None;
     teamSelector :=
       if (1 <? length (teams props))%nat && negb (opt_true (fixedTeam props)) then
         Some {| selector_testId := "team-filter";
                 selectedId := get fetchParams "team_id";
                 customControl :=
                   TeamControlComponent
                     (truthy (get fetchParams "team_id"))
                     (resetTeam (teamSelectorToggle st));
                 controlledOpenToggle := teamSelectorToggle st;
                 onSelectedChange := setTeamId |}
       else None |}.

End FiltersBar.

(** ** The playbook detail page *)

Module PlaybookPage.

(** The fields of [PlaybookWithChecklist] that the page reads. *)
Record PlaybookWithChecklist : Type := {
  id : string;
  title : string;
  team_id : string;
  public : bool;
  members : list string;
  delete_at : Z
}.

Record FetchingStateTypeT : Type := {
  loading : string;
  fetched : string;
  notFound : string
}.

Definition FetchingStateType : FetchingStateTypeT :=
  {| loading := "loading"; fetched := "fetched"; notFound := "notfound" |}.

(** The member of [PlaybookPermissionGeneral] that the page asks for. *)
Inductive PlaybookPermissionGeneral : Type :=
  | RunCreate.

(** The member of [ErrorPageTypes] that the page redirects to. *)
Inductive ErrorPageTypes : Type :=
  | PLAYBOOKS.

Inductive Url : Type :=
  | pluginErrorUrl (type : ErrorPageTypes).

(** Calls that leave the component: the REST client and the router. *)
Inductive Effect : Type :=
  | clientFetchPlaybook (playbookId : string)
  | clientFetchIsPlaybookFollower (playbookId userId : string)
  | autoFollowPlaybook (playbookId userId : string)
  | autoUnfollowPlaybook (playbookId userId : string)
  | archivePlaybook (playbookId : string)
  | telemetryEventForPlaybook (playbookId event : string)
  | navigateToPluginUrl (path : string)
  | navigateToUrl (url : string).

(** The state cells of the component, in the order of its [useState]
    calls, then the cell of the archive modal's hook and the log of the
    calls made so far (oldest first). *)
Record State : Type := {
  playbook : option PlaybookWithChecklist;
  fetchingState : string;
  isFollowed : bool;
  playbookLinkCopied : bool;
  archiveModalOpen : bool;
  effects : list Effect
}.

Definition initialState : State :=
  {| playbook := None;
     fetchingState := loading FetchingStateType;
     isFollowed := false;
     playbookLinkCopied := false;
     archiveModalOpen := false;
     effects := [] |}.

Definition Handler : Type := State -> State.

Definition setPlaybook (p : option PlaybookWithChecklist) : Handler :=
  fun st =>
    {| playbook := p; fetchingState := fetchingState st;
       isFollowed := isFollowed st;
       playbookLinkCopied := playbookLinkCopied st;
       archiveModalOpen := archiveModalOpen st; effects := effects st |}.

Definition setFetchingState (s : string) : Handler :=
  fun st =>
    {| playbook := playbook st; fetchingState := s;
       isFollowed := isFollowed st;
       playbookLinkCopied := playbookLinkCopied st;
       archiveModalOpen := archiveModalOpen st; effects := effects st |}.

Definition setIsFollowed (b : bool) : Handler :=
  fun st =>
    {| playbook := playbook st; fetchingState := fetchingState st;
       isFollowed := b;
       playbookLinkCopied := playbookLinkCopied st;
       archiveModalOpen := archiveModalOpen st; effects := effects st |}.

Definition setArchiveModalOpen (b : bool) : Handler :=
  fun st =>
    {| playbook := playbook st; fetchingState := fetchingState st;
       isFollowed := isFollowed st;
       playbookLinkCopied := playbookLinkCopied st;
       archiveModalOpen := b; effects := effects st |}.

Definition call (e : Effect) : Handler :=
  fun st =>
    {| playbook := playbook st; fetchingState := fetchingState st;
       isFollowed := isFollowed st;
       playbookLinkCopied := playbookLinkCopied st;
       archiveModalOpen := archiveModalOpen st;
       effects := effects st ++ [e] |}.

(** The part of a [Team] of the store that the page reads. *)
Record Team : Type := { name : string }.

(** What the component gets from its surroundings in a render: the route,
    the store, the locale and the permission hook. *)

Record Env : Type := {
  playbookId : string;                        (* match.params.playbookId *)
  currentUserId : string;
  getTeam : string -> option Team;            (* getTeam(state, id), undefined
                                                 for a team not in the store *)
  formatMessage : string -> string;           (* useIntl(): the locale's text
                                                 for a default message *)
  useHasPlaybookPermission :
    PlaybookPermissionGeneral -> option PlaybookWithChecklist -> bool
}.

(** *** Awaited calls: a promise resolves or rejects *)

Inductive Outcome (A : Type) : Type :=
  | Resolved (a : A)
  | Rejected.

Arguments Resolved {A} a.
Arguments Rejected {A}.

(** How the server answers the two fetches of the page. *)
Record Server : Type := {
  fetchPlaybook_answer : string -> Outcome (option PlaybookWithChecklist);
  isPlaybookFollower_answer : string -> string -> Outcome bool
}.

(** A block of an async function: it runs on the state and either
    completes with a value or throws; the state changes made before a
    throw stay. *)
Definition Async (A : Type) : Type := State -> Outcome A * State.

#[export] Instance Async_ret : MRet Async :=
  fun A a st => (Resolved a, st).

#[export] Instance Async_bind : MBind Async :=
  fun A B f m st =>
    match m st with
    | (Resolved a, st') => f a st'
    | (Rejected, st') => (Rejected, st')
    end.

Definition do_ (h : Handler) : Async unit :=
  fun st => (Resolved tt, h st).

Definition await {A : Type} (e : Effect) (answer : Outcome A) : Async A :=
  fun st => (answer, call e st).

(** [try { body } catch { handler }]. *)
Definition try_catch (body handler : Async unit) : Handler :=
  fun st =>
    match body st with
    | (Resolved _, st') => st'
    | (Rejected, st') => snd (handler st')
    end.

Definition fetchData (srv : Server) (env : Env) : Handler :=
  fun st =>
    let playbookId := playbookId env in
    if negb (String.eqb playbookId "") then
      try_catch
        (fetchedPlaybook ← await (clientFetchPlaybook playbookId)
                                 (fetchPlaybook_answer srv playbookId);
         isPlaybookFollower ← await (clientFetchIsPlaybookFollower playbookId (currentUserId env))
                                    (isPlaybookFollower_answer srv playbookId (currentUserId env));
         do_ (setPlaybook fetchedPlaybook);;
         do_ (setFetchingState (fetched FetchingStateType));;
         do_ (setIsFollowed isPlaybookFollower))
        (do_ (setFetchingState (notFound FetchingStateType));;
         do_ (setIsFollowed false))
        st
    else st.

(** *** Handlers; the arguments before the state are what the closure
    captured in the render that created it *)

Definition archiveCallback (playbook : option PlaybookWithChecklist) : Handler :=
  fun st =>
    match playbook with
    | Some p => call (navigateToPluginUrl "/playbooks") (call (archivePlaybook (id p)) st)
    | None => st
    end.

Definition changeFollowing (playbook : option PlaybookWithChecklist)
    (currentUserId : string) (check : bool) : Handler :=
  fun st =>
    match playbook with
    | Some p =>
        if negb (String.eqb (id p) "") then
          setIsFollowed check
            (call (if check then autoFollowPlaybook (id p) currentUserId
                   else autoUnfollowPlaybook (id p) currentUserId) st)
        else st
    | None => st
    end.

Definition goToPlaybooks : Handler := call (navigateToPluginUrl "/playbooks").

(** [team] is what the selector found for the playbook's team.  The url
    reads [team.name]: without a team that read throws, after the
    telemetry call and before the navigation, and the handler ends
    there. *)
Definition runPlaybook (playbook : option PlaybookWithChecklist)
    (team : option Team) : Handler :=
  fun st =>
    match playbook with
    | Some p =>
        if negb (String.eqb (id p) "") then
          let st' :=
            call (telemetryEventForPlaybook (id p) "playbook_dashboard_run_clicked") st in
          match team with
          | Some t =>
              call (navigateToUrl ("/" ++ name t ++ "/_playbooks/" ++ id p ++ "/run")) st'
          | None => st'
          end
        else st
    | None => st
    end.

(** *** What the component renders *)

Record ButtonProps : Type := {
  button_testId : string;
  button_disabled : bool;
  button_title : string;
  onClick : Handler
}.

Record CheckboxInputProps : Type := {
  testId : string;
  text : string;
  checked : bool;
  disabled : bool;
  onChange : bool -> Handler
}.

Record ModalView : Type := {
  onConfirm : Handler;
  onCancel : Handler
}.

(** Modelled from the spec: the hook [useConfirmPlaybookArchiveModal] of
    ../archive_playbook_modal, which is not among the sources.  It gives
    the page a modal node and a function that opens it; the modal is a
    confirmation dialog for archiving, so confirming runs the callback the
    page passed in and closes the dialog, and cancelling only closes it.
    The hook's own cell is [archiveModalOpen]. *)
Definition useConfirmPlaybookArchiveModal (callback : Handler) (st : State)
  : option ModalView * (PlaybookWithChecklist -> Handler) :=
  (if archiveModalOpen st
   then Some {| onConfirm := fun st' => setArchiveModalOpen false (callback st');
                onCancel := setArchiveModalOpen false |}
   else None,
   fun _ => setArchiveModalOpen true).

(** The title row of the page: the entries that depend on the playbook
    and carry a handler or a flag. *)
Record PageView : Type := {
  accessIconClass : string;
  titleText : string;
  archiveMenuItem : option Handler;   (* the item "Archive playbook" *)
  membersCount : nat;
  archivedBadge : bool;
  followButton_checked : bool;        (* SecondaryButtonLargerRightStyled *)
  followButton_disabled : bool;
  toolTipText : string;
  autoFollowCheckbox : CheckboxInputProps;
  runButton : ButtonProps;
  modal : option ModalView
}.

Inductive Rendered : Type :=
  | RenderNull
  | Redirect (to : Url)
  | RenderPage (v : PageView).

(** The component's render.  The hooks run first; then the two early
    returns, where [fetchingState === notFound || !playbook] is split into
    its two cases so that the page below has the playbook at hand. *)
Definition Playbook (env : Env) (st : State) : Rendered :=
  let playbook := playbook st in
  let team :=
    getTeam env (match playbook with Some pb => team_id pb | None => "" end) in
  let '(modal, openDeletePlaybookModal) :=
    useConfirmPlaybookArchiveModal (archiveCallback playbook) st in
  let hasPermissionToRunPlaybook :=
    useHasPlaybookPermission env RunCreate playbook in
  if String.eqb (fetchingState st) (loading FetchingStateType) then RenderNull
  else
    match playbook with
    | None => Redirect (pluginErrorUrl PLAYBOOKS)
    | Some pb =>
        if String.eqb (fetchingState st) (notFound FetchingStateType)
        then Redirect (pluginErrorUrl PLAYBOOKS)
        else
          let archived := negb (Z.eqb (delete_at pb) 0) in
          let enableRunPlaybook := negb archived && hasPermissionToRunPlaybook in
          RenderPage
            {| accessIconClass :=
                 if public pb then "icon-globe" else "icon-lock-outline";
               titleText := title pb;
               archiveMenuItem :=
                 if negb archived then Some (openDeletePlaybookModal pb) else None;
               membersCount := length (members pb);
               archivedBadge := archived;
               followButton_checked := isFollowed st;
               followButton_disabled := archived;
               toolTipText :=
                 formatMessage env
                   (if isFollowed st
                    then "You automatically receive updates when this playbook is run."
                    else "Select this to automatically receive updates when this playbook is run.");
               autoFollowCheckbox :=
                 {| testId := "auto-follow-runs";
                    text := "Auto-follow runs";
                    checked := isFollowed st;
                    disabled := archived;
                    onChange := changeFollowing playbook (currentUserId env) |};
               runButton :=
                 {| button_testId := "run-playbook";
                    button_disabled := negb enableRunPlaybook;
                    button_title :=
                      formatMessage env
                        (if enableRunPlaybook then "Run Playbook"
                         else "You do not have permissions");
                    onClick := runPlaybook playbook team |};
               modal := modal |}
    end.

(** *** What a user can do with the rendered page *)

Inductive UserAction : Type :=
  | ClickArchivePlaybook
  | ConfirmArchive
  | CancelArchive
  | ToggleAutoFollow
  | ClickRun
  | ClickBack.

(** Modelled from the spec: [CheckboxInput] of ../runs_list/checkbox_input,
    which is not among the sources.  A click on the box reports the
    opposite of the displayed value through [onChange]; a disabled box
    reports nothing, which is what lets the page switch the control off. *)
Definition CheckboxInput_click (p : CheckboxInputProps) : Handler :=
  fun st => if disabled p then st else onChange p (negb (checked p)) st.

(** Modelled from the spec: [PrimaryButton] of src/components/assets/buttons,
    which is not among the sources.  It is a button: the run action is
    available through it when it is enabled, and a disabled button
    delivers no click. *)
Definition Button_click (p : ButtonProps) : Handler :=
  fun st => if button_disabled p then st else onClick p st.

Definition perform (v : PageView) (a : UserAction) : Handler :=
  match a with
  | ClickArchivePlaybook => default (fun st => st) (archiveMenuItem v)
  | ConfirmArchive => default (fun st => st) (onConfirm <$> modal v)
  | CancelArchive => default (fun st => st) (onCancel <$> modal v)
  | ToggleAutoFollow => CheckboxInput_click (autoFollowCheckbox v)
  | ClickRun => Button_click (runButton v)
  | ClickBack => goToPlaybooks
  end.

(** One user action on the page as the current state renders it; nothing
    can be clicked while the page renders nothing or redirects. *)
Definition step (env : Env) (a : UserAction) : Handler :=
  fun st =>
    match Playbook env st with
    | RenderPage v => perform v a st
    | _ => st
    end.

Fixpoint run (env : Env) (actions : list UserAction) (st : State) : State :=
  match actions with
  | [] => st
  | a :: rest => run env rest (step env a st)
  end.

Definition is_follow_call (e : Effect) : bool :=
  match e with
  | autoFollowPlaybook _ _ | autoUnfollowPlaybook _ _ => true
  | _ => false
  end.

Definition is_archive_call (e : Effect) : bool :=
  match e with
  | archivePlaybook _ => true
  | _ => false
  end.

(** Inputs used to check the statements on concrete data. *)
Definition sample_playbook (deleted : Z) : PlaybookWithChecklist :=
  {| id := "pb1"; title := "Incident"; team_id := "t1"; public := true;
     members := ["u1"; "u2"]; delete_at := deleted |}.

Definition sample_env : Env :=
  {| playbookId := "pb1"; currentUserId := "u1";
     getTeam := fun i => if String.eqb i "t1" then Some {| name := "one" |} else None;
     formatMessage := fun m => m;
     useHasPlaybookPermission := fun _ _ => true |}.

Definition sample_server (deleted : Z) : Server :=
  {| fetchPlaybook_answer := fun _ => Resolved (Some (sample_playbook deleted));
     isPlaybookFollower_answer := fun _ _ => Resolved true |}.

Definition failing_server : Server :=
  {| fetchPlaybook_answer := fun _ => Resolved (Some (sample_playbook 0));
     isPlaybookFollower_answer := fun _ _ => Rejected |}.

(** The page as it stands once the fetch on mount has completed. *)
Definition mounted (srv : Server) (env : Env) : State :=
  fetchData srv env initialState.

End PlaybookPage.

(** ** Quantifying over the filter bar's setters and selectors *)

Module FilterMutations.
Import FiltersBar.

(** A filter mutation: one of the six setters with its arguments. *)
Inductive Mutation : Type :=
  | SearchTerm (term : string)
  | MyRunsOnly (checked : option bool)
  | OwnerId (userType : option string) (user : option UserProfile)
  | TeamId (teamId : option string)
  | PlaybookId (playbookId : option string)
  | FinishedRuns (checked : option bool).

Definition mutate (m : Mutation) : Handler :=
  match m with
  | SearchTerm term => setSearchTerm term
  | MyRunsOnly checked => setMyRunsOnly checked
  | OwnerId userType user => setOwnerId userType user
  | TeamId teamId => setTeamId teamId
  | PlaybookId playbookId => setPlaybookId playbookId
  | FinishedRuns checked => setFinishedRuns checked
  end.

(** The property of the fetch parameters that a mutation writes besides
    [page]. *)
Definition target (m : Mutation) : string :=
  match m with
  | SearchTerm _ => "search_term"
  | MyRunsOnly _ => "participant_or_follower_id"
  | OwnerId _ _ => "owner_user_id"
  | TeamId _ => "team_id"
  | PlaybookId _ => "playbook_id"
  | FinishedRuns _ => "statuses"
  end.

Inductive Selector : Type :=
  | OwnerSelector
  | TeamSelector
  | PlaybookSelector.

Definition idField (sel : Selector) : string :=
  match sel with
  | OwnerSelector => "owner_user_id"
  | TeamSelector => "team_id"
  | PlaybookSelector => "playbook_id"
  end.

Definition toggleOf (sel : Selector) (st : State) : bool :=
  match sel with
  | OwnerSelector => profileSelectorToggle st
  | TeamSelector => teamSelectorToggle st
  | PlaybookSelector => playbookSelectorToggle st
  end.

(** The click handler of a selector's reset anchor, when the selector and
    the anchor are rendered. *)
Definition resetControl (sel : Selector) (v : View) : option Handler :=
  match sel with
  | OwnerSelector => snd <$> resetAnchor (customControl (ownerSelector v))
  | TeamSelector =>
      c ← teamSelector v; snd <$> resetAnchor (customControl c)
  | PlaybookSelector =>
      c ← playbookSelector v; snd <$> resetAnchor (customControl c)
  end.

(** The toggle a selector is given as [controlledOpenToggle]. *)
Definition openToggle (sel : Selector) (v : View) : option bool :=
  match sel with
  | OwnerSelector => Some (controlledOpenToggle (ownerSelector v))
  | TeamSelector => controlledOpenToggle <$> teamSelector v
  | PlaybookSelector => controlledOpenToggle <$> playbookSelector v
  end.

(** A concrete bar used to check the statements on an input. *)
Definition sample_params : gmap string JsVal :=
  <["sort" := VStr "name"]>
    (<["per_page" := VNum 25]>
      (<["page" := VNum 3]>
        (<["owner_user_id" := VStr "u1"]>
          (<["team_id" := VStr "t1"]>
            (<["playbook_id" := VStr "p1"]>
              (<["statuses" := VArr [InProgress; Finished]]> ∅)))))).

Definition sample_state : State :=
  {| fetchParams := sample_params;
     profileSelectorToggle := false;
     teamSelectorToggle := true;
     playbookSelectorToggle := false |}.

Definition sample_props : Props :=
  {| teams := [ {| team_id := "t1"; team_name := "one" |};
                {| team_id := "t2"; team_name := "two" |} ];
     fixedTeam := None; fixedPlaybook := None; fixedFinished := Some false |}.

End FilterMutations.

(** ** The option lists of the owner and playbook selectors *)

Module FiltersFetch.
Import FiltersBar.

(** [v || '']. *)
Definition or_empty (v : JsVal) : JsVal :=
  if truthy v then v else VStr "".

(** The two client calls of the filter bar with their arguments. *)
Inductive Request : Type :=
  | fetchOwnersInTeam (team_id : JsVal)
  | clientFetchPlaybooks (team_id : JsVal) (params : gmap string JsVal).

(** The part of the answer of [clientFetchPlaybooks] that is read. *)
Record FetchPlaybooksReturn : Type := {
  items : list (gmap string JsVal)
}.

(** How the server answers the two calls; no answer at all ([null],
    [undefined]) is [None]. *)
Record Client : Type := {
  fetchOwnersInTeam_answer :
    JsVal -> PlaybookPage.Outcome (list (gmap string JsVal));
  clientFetchPlaybooks_answer :
    JsVal -> gmap string JsVal -> PlaybookPage.Outcome (option FetchPlaybooksReturn)
}.

(** Both functions make one request and await it: the result is the
    request made and what the returned promise settles to. *)
Definition fetchOwners (cl : Client) (fetchParams : gmap string JsVal)
  : Request * PlaybookPage.Outcome (list (gmap string JsVal)) :=
  let team := or_empty (get fetchParams "team_id") in
  (fetchOwnersInTeam team,
   match fetchOwnersInTeam_answer cl team with
   | PlaybookPage.Resolved owners =>
       PlaybookPage.Resolved ((fun c => <["id" := get c "user_id"]> c) <$> owners)
   | PlaybookPage.Rejected => PlaybookPage.Rejected
   end).

Definition fetchPlaybooks (cl : Client) (fetchParams : gmap string JsVal)
  : Request * PlaybookPage.Outcome (list (gmap string JsVal)) :=
  let team := or_empty (get fetchParams "team_id") in
  let params := <["sort" := VStr "title"]> (<["team_id" := team]> ∅) in
  (clientFetchPlaybooks team params,
   match clientFetchPlaybooks_answer cl team params with
   | PlaybookPage.Resolved playbooks =>
       PlaybookPage.Resolved
         match playbooks with
         | Some r => items r
         | None => []
         end
   | PlaybookPage.Rejected => PlaybookPage.Rejected
   end).

(** The id a selector shows as selected, when the selector is rendered. *)
Definition selection (sel : FilterMutations.Selector) (v : View) : option JsVal :=
  match sel with
  | FilterMutations.OwnerSelector => Some (selectedId (ownerSelector v))
  | FilterMutations.TeamSelector => selectedId <$> teamSelector v
  | FilterMutations.PlaybookSelector => selectedId <$> playbookSelector v
  end.

(** The mutation a selector makes when the id [i] is chosen in it. *)
Definition choose (sel : FilterMutations.Selector) (i : option string)
  : FilterMutations.Mutation :=
  match sel with
  | FilterMutations.OwnerSelector =>
      FilterMutations.OwnerId None ((fun s => {| user_id := s |}) <$> i)
  | FilterMutations.TeamSelector => FilterMutations.TeamId i
  | FilterMutations.PlaybookSelector => FilterMutations.PlaybookId i
  end.

Definition sample_owners : list (gmap string JsVal) :=
  [ <["user_id" := VStr "u1"]> (<["username" := VStr "ann"]> ∅);
    <["user_id" := VStr "u2"]> (<["username" := VStr "bob"]> ∅) ].

Definition sample_client : Client :=
  {| fetchOwnersInTeam_answer := fun _ => PlaybookPage.Resolved sample_owners;
     clientFetchPlaybooks_answer := fun _ _ => PlaybookPage.Resolved None |}.

End FiltersFetch.

(** ** Selecting calls of the page from its log *)

Module PlaybookCalls.
Import PlaybookPage.

(** The two calls of [runPlaybook]. *)
Definition is_run_call (e : Effect) : bool :=
  match e with
  | navigateToUrl _ => true
  | telemetryEventForPlaybook _ event =>
      String.eqb event "playbook_dashboard_run_clicked"
  | _ => false
  end.

(** The calls of [fetchData]. *)
Definition is_fetch_call (e : Effect) : bool :=
  match e with
  | clientFetchPlaybook _ | clientFetchIsPlaybookFollower _ _ => true
  | _ => false
  end.

Definition is_confirm (a : UserAction) : bool :=
  match a with
  | ConfirmArchive => true
  | _ => false
  end.

(** The calls an action on a page showing [p] can make, in order. *)
Definition calls_of (env : Env) (p : PlaybookWithChecklist) (a : UserAction)
  : list (list Effect) :=
  match a with
  | ClickArchivePlaybook | CancelArchive => []
  | ConfirmArchive =>
      [[archivePlaybook (id p); navigateToPluginUrl "/playbooks"]]
  | ToggleAutoFollow =>
      [[autoFollowPlaybook (id p) (currentUserId env)];
       [autoUnfollowPlaybook (id p) (currentUserId env)]]
  | ClickRun =>
      [telemetryEventForPlaybook (id p) "playbook_dashboard_run_clicked"
       :: match getTeam env (team_id p) with
          | Some t =>
              [navigateToUrl ("/" ++ name t ++ "/_playbooks/" ++ id p ++ "/run")]
          | None => []
          end]
  | ClickBack => [[navigateToPluginUrl "/playbooks"]]
  end.




End PlaybookCalls.

(** Dropping the calls that a filter does not select from a log. *)
Ltac drop_calls :=
  simpl; rewrite ?List.filter_app; simpl; rewrite ?app_nil_r; reflexivity.

(** * Properties of the filter bar *)

Module FiltersSpec.
Import FiltersBar FilterMutations.

Section Spread.
Variables (o : gmap string JsVal) (k : string) (v : JsVal).

Lemma spread_with_page : spread_with o k v !! "page" = Some (VNum 0).
Proof. unfold spread_with. apply lookup_insert_eq. Qed.

Lemma spread_with_target : k ≠ "page" → spread_with o k v !! k = Some v.
Proof.
  intros Hk. unfold spread_with.
  rewrite lookup_insert_ne by congruence. apply lookup_insert_eq.
Qed.

Lemma spread_with_other (j : string) :
  j ≠ k → j ≠ "page" → spread_with o k v !! j = o !! j.
Proof.
  intros Hk Hp. unfold spread_with.
  rewrite lookup_insert_ne by congruence.
  rewrite lookup_insert_ne by congruence. reflexivity.
Qed.

End Spread.

Lemma target_not_page (m : Mutation) : target m ≠ "page".
Proof. destruct m; discriminate. Qed.

Lemma idField_not_page (sel : Selector) : idField sel ≠ "page".
Proof. destruct sel; discriminate. Qed.

(** Every mutation is a spread of the old parameters with its target. *)
Lemma mutate_spread (m : Mutation) (st : State) :
  ∃ v, fetchParams (mutate m st) = spread_with (fetchParams st) (target m) v.
Proof. destruct m; simpl; eexists; reflexivity. Qed.

Lemma mutate_toggles (m : Mutation) (st : State) :
  profileSelectorToggle (mutate m st) = profileSelectorToggle st
  ∧ teamSelectorToggle (mutate m st) = teamSelectorToggle st
  ∧ playbookSelectorToggle (mutate m st) = playbookSelectorToggle st.
Proof. destruct m; repeat split. Qed.

(** The handlers that the rendered bar attaches to its controls are the
    six mutations. *)
Lemma view_handlers_mutate (props : Props) (st : State) :
  let v := Filters props st in
  (∀ term, debounced_fn (onSearch (searchInput v)) term = mutate (SearchTerm term))
  ∧ (∀ c, onChange (myRunsOnlyCheckbox v) c = mutate (MyRunsOnly c))
  ∧ (∀ cb c, finishedRunsCheckbox v = Some cb →
             onChange cb c = mutate (FinishedRuns c))
  ∧ (∀ t u, onSelectedChange (ownerSelector v) (t, u) = mutate (OwnerId t u))
  ∧ (∀ sel i, playbookSelector v = Some sel →
              onSelectedChange sel i = mutate (PlaybookId i))
  ∧ (∀ sel i, teamSelector v = Some sel →
              onSelectedChange sel i = mutate (TeamId i)).
Proof.
  unfold Filters; simpl. repeat split.
  - intros cb c. destruct (negb _); [|discriminate]. intros [= <-]. reflexivity.
  - intros sel i. destruct (negb _); [|discriminate]. intros [= <-]. reflexivity.
  - intros sel i. destruct (_ && _); [|discriminate]. intros [= <-]. reflexivity.
Qed.

(** C3.  When the "Include finished" checkbox is rendered, its change
    handler sets [statuses] to exactly [InProgress, Finished] for checked
    and to exactly [InProgress] for unchecked (or no value), from every
    state; and the box is shown checked exactly when the statuses list of
    the rendered parameters has more than one element (unchecked when the
    parameters have no statuses). *)
Theorem finished_runs_checkbox (props : Props) (st : State) (cb : CheckboxInputProps) :
  finishedRunsCheckbox (Filters props st) = Some cb →
  (∀ st', fetchParams (onChange cb (Some true) st') !! "statuses"
          = Some (VArr [InProgress; Finished]))
  ∧ (∀ st', fetchParams (onChange cb (Some false) st') !! "statuses"
            = Some (VArr [InProgress]))
  ∧ (∀ st', fetchParams (onChange cb None st') !! "statuses"
            = Some (VArr [InProgress]))
  ∧ (∀ l, fetchParams st !! "statuses" = Some (VArr l) →
          (checked cb = true ↔ 1 < length l))
  ∧ (get (fetchParams st) "statuses" = VUndefined → checked cb = false).
Proof.
  unfold Filters; simpl.
  destruct (negb (opt_true (fixedFinished props))); [|discriminate].
  intros [= <-]; simpl.
  do 3 (split; [intros st'; apply spread_with_target; discriminate|]).
  split.
  - intros l Hl. unfold get. rewrite Hl. simpl.
    rewrite Z.ltb_lt. lia.
  - intros ->. reflexivity.
Qed.

Lemma finished_runs_checkbox_witness :
  finishedRunsCheckbox (Filters sample_props sample_state)
    = Some {| checkbox_testId := "finished-runs"; checked := true;
              onChange := setFinishedRuns |}
  ∧ fetchParams (setFinishedRuns (Some false) sample_state) !! "statuses"
    = Some (VArr [InProgress]).
Proof.
  split; [reflexivity|].
  exact (proj1 (proj2 (finished_runs_checkbox sample_props sample_state _ eq_refl))
           sample_state).
Defined.

(** C4.  Every filter mutation (search term, my-runs-only, owner, team,
    playbook, include-finished), with any arguments and from any state,
    leaves the fetch parameters with [page] equal to 0. *)
Theorem mutation_resets_page (m : Mutation) (st : State) :
  fetchParams (mutate m st) !! "page" = Some (VNum 0).
Proof.
  destruct (mutate_spread m st) as [v ->]. apply spread_with_page.
Qed.

(** C5.  The change handler of the "My runs only" checkbox sets
    [participant_or_follower_id] to the string "me" for checked and to the
    empty string for unchecked, from every state; and the box is shown
    checked exactly when that property of the rendered parameters is the
    string "me". *)
Theorem my_runs_only_checkbox (props : Props) (st : State) :
  let cb := myRunsOnlyCheckbox (Filters props st) in
  (∀ st', fetchParams (onChange cb (Some true) st') !! "participant_or_follower_id"
          = Some (VStr "me"))
  ∧ (∀ st', fetchParams (onChange cb (Some false) st') !! "participant_or_follower_id"
            = Some (VStr ""))
  ∧ (checked cb = true
     ↔ get (fetchParams st) "participant_or_follower_id" = VStr "me").
Proof.
  simpl.
  do 2 (split; [intros st'; apply spread_with_target; discriminate|]).
  destruct (get (fetchParams st) "participant_or_follower_id") as [|s| |]; simpl;
    try (split; discriminate).
  rewrite String.eqb_eq. split; congruence.
Qed.

(** C6.  For each selector (owner, team, playbook): a click on its
    rendered reset control leaves the selector's id property of the fetch
    parameters present with value undefined and [page] equal to 0, and
    the selector's controlled-open toggle negated. *)
Theorem reset_control_clears_and_flips
    (props : Props) (st : State) (sel : Selector) (h : Handler) :
  resetControl sel (Filters props st) = Some h →
  fetchParams (h st) !! idField sel = Some VUndefined
  ∧ fetchParams (h st) !! "page" = Some (VNum 0)
  ∧ toggleOf sel (h st) = negb (toggleOf sel st)
  ∧ openToggle sel (Filters props (h st)) = negb <$> openToggle sel (Filters props st).
Proof.
  destruct sel; unfold Filters; simpl.
  - destruct (truthy _); [|discriminate].
    intros [= <-]; simpl. repeat split.
    + apply spread_with_target. discriminate.
    + apply spread_with_page.
  - destruct (_ && _); [|discriminate]. simpl.
    destruct (truthy _); [|discriminate].
    intros [= <-]; simpl. repeat split.
    + apply spread_with_target. discriminate.
    + apply spread_with_page.
  - destruct (negb _); [|discriminate]. simpl.
    destruct (truthy _); [|discriminate].
    intros [= <-]; simpl. repeat split.
    + apply spread_with_target. discriminate.
    + apply spread_with_page.
Qed.

Lemma reset_control_clears_and_flips_witness :
  resetControl TeamSelector (Filters sample_props sample_state)
    = Some (resetTeam true)
  ∧ fetchParams (resetTeam true sample_state) !! "team_id" = Some VUndefined
  ∧ fetchParams (resetTeam true sample_state) !! "page" = Some (VNum 0)
  ∧ teamSelectorToggle (resetTeam true sample_state) = false.
Proof.
  split; [reflexivity|].
  pose proof (reset_control_clears_and_flips sample_props sample_state
                TeamSelector (resetTeam true) eq_refl) as (H1 & H2 & H3 & _).
  exact (conj H1 (conj H2 H3)).
Defined.

(** C7.  A filter setter changes no property of the fetch parameters
    other than its own target and [page]: every other property name,
    whatever it is, is present after the call exactly when it was present
    before, with the same value.  The three toggles are not touched. *)
Theorem mutation_frame (m : Mutation) (st : State) (k : string) :
  k ≠ target m → k ≠ "page" →
  fetchParams (mutate m st) !! k = fetchParams st !! k.
Proof.
  intros Ht Hp. destruct (mutate_spread m st) as [v ->].
  apply spread_with_other; assumption.
Qed.

Lemma mutation_frame_witness :
  "sort" ≠ target (TeamId (Some "t2")) ∧ "sort" ≠ "page"
  ∧ fetchParams (mutate (TeamId (Some "t2")) sample_state) !! "sort"
    = fetchParams sample_state !! "sort".
Proof.
  assert (H1 : "sort" ≠ target (TeamId (Some "t2"))) by discriminate.
  assert (H2 : "sort" ≠ "page") by discriminate.
  exact (conj H1 (conj H2
           (mutation_frame (TeamId (Some "t2")) sample_state "sort" H1 H2))).
Defined.

(** The search box gets the search-term setter wrapped by [debounce] with
    the delay constant, which is 300. *)
Lemma search_input_debounced (props : Props) (st : State) :
  onSearch (searchInput (Filters props st)) = debounce setSearchTerm 300.
Proof. reflexivity. Qed.

End FiltersSpec.

(** * Properties of the playbook detail page *)

Module PlaybookSpec.
Import PlaybookPage.

(** ** The fetch on mount *)

Section FetchData.
Variables (srv : Server) (env : Env).

Abbreviation pid := (playbookId env).
Abbreviation uid := (currentUserId env).

Lemma fetchData_no_id (st : State) :
  pid = "" → fetchData srv env st = st.
Proof. unfold fetchData. intros ->. reflexivity. Qed.

Lemma fetchData_fetch_rejected (st : State) :
  pid ≠ "" →
  fetchPlaybook_answer srv pid = Rejected →
  fetchData srv env st
  = setIsFollowed false
      (setFetchingState (notFound FetchingStateType)
         (call (clientFetchPlaybook pid) st)).
Proof.
  unfold fetchData. intros Hid Hf.
  apply String.eqb_neq in Hid. rewrite Hid. simpl.
  unfold try_catch, mbind, Async_bind, await. rewrite Hf. reflexivity.
Qed.

Lemma fetchData_follower_rejected (st : State) (p : option PlaybookWithChecklist) :
  pid ≠ "" →
  fetchPlaybook_answer srv pid = Resolved p →
  isPlaybookFollower_answer srv pid uid = Rejected →
  fetchData srv env st
  = setIsFollowed false
      (setFetchingState (notFound FetchingStateType)
         (call (clientFetchIsPlaybookFollower pid uid)
            (call (clientFetchPlaybook pid) st))).
Proof.
  unfold fetchData. intros Hid Hf Hg.
  apply String.eqb_neq in Hid. rewrite Hid. simpl.
  unfold try_catch, mbind, Async_bind, await. rewrite Hf, Hg. reflexivity.
Qed.

Lemma fetchData_resolved (st : State) (p : option PlaybookWithChecklist) (b : bool) :
  pid ≠ "" →
  fetchPlaybook_answer srv pid = Resolved p →
  isPlaybookFollower_answer srv pid uid = Resolved b →
  fetchData srv env st
  = setIsFollowed b
      (setFetchingState (fetched FetchingStateType)
         (setPlaybook p
            (call (clientFetchIsPlaybookFollower pid uid)
               (call (clientFetchPlaybook pid) st)))).
Proof.
  unfold fetchData. intros Hid Hf Hg.
  apply String.eqb_neq in Hid. rewrite Hid. simpl.
  unfold try_catch, mbind, Async_bind, await. rewrite Hf, Hg. reflexivity.
Qed.

End FetchData.

(** C1.  After the fetch on mount the page renders the redirect to the
    plugin error page exactly when a fetch was made (the route has a
    playbook id) and the fetch of the playbook threw, or the fetch of the
    follow status threw, or the playbook fetch returned no playbook.  When
    either fetch throws, from any earlier state of the page, the fetching
    state becomes not-found and the follow flag is false. *)
Theorem not_found_redirect (srv : Server) (env : Env) :
  (Playbook env (mounted srv env) = Redirect (pluginErrorUrl PLAYBOOKS)
   ↔ playbookId env ≠ ""
     ∧ (fetchPlaybook_answer srv (playbookId env) = Rejected
        ∨ isPlaybookFollower_answer srv (playbookId env) (currentUserId env) = Rejected
        ∨ fetchPlaybook_answer srv (playbookId env) = Resolved None))
  ∧ (∀ st : State,
       playbookId env ≠ "" →
       fetchPlaybook_answer srv (playbookId env) = Rejected
       ∨ isPlaybookFollower_answer srv (playbookId env) (currentUserId env) = Rejected →
       fetchingState (fetchData srv env st) = notFound FetchingStateType
       ∧ isFollowed (fetchData srv env st) = false).
Proof.
  split.
  - unfold mounted.
    destruct (decide (playbookId env = "")) as [He|Hne].
    { rewrite fetchData_no_id by exact He. simpl.
      split; [discriminate | intros [H _]; contradiction]. }
    destruct (fetchPlaybook_answer srv (playbookId env)) as [p|] eqn:Hf.
    + destruct (isPlaybookFollower_answer srv (playbookId env) (currentUserId env))
        as [b|] eqn:Hg.
      * rewrite (fetchData_resolved srv env _ p b Hne Hf Hg).
        destruct p as [p|]; simpl.
        -- split; [discriminate|].
           intros [_ [H|[H|H]]]; discriminate.
        -- split; [|reflexivity]. intros _. split; [exact Hne|]. auto.
      * rewrite (fetchData_follower_rejected srv env _ p Hne Hf Hg).
        split.
        -- intros _. split; [exact Hne|]. auto.
        -- intros _. unfold Playbook. simpl. destruct p; reflexivity.
    + rewrite (fetchData_fetch_rejected srv env _ Hne Hf).
      split.
      * intros _. split; [exact Hne|]. auto.
      * intros _. reflexivity.
  - intros st Hne H.
    destruct (fetchPlaybook_answer srv (playbookId env)) as [p|] eqn:Hf.
    + destruct H as [H|H]; [discriminate|].
      rewrite (fetchData_follower_rejected srv env _ p Hne Hf H). split; reflexivity.
    + rewrite (fetchData_fetch_rejected srv env _ Hne Hf). split; reflexivity.
Qed.

Lemma not_found_redirect_witness :
  Playbook sample_env (mounted failing_server sample_env)
    = Redirect (pluginErrorUrl PLAYBOOKS)
  ∧ isFollowed (fetchData failing_server sample_env
                  (setIsFollowed true initialState)) = false.
Proof.
  pose proof (not_found_redirect failing_server sample_env) as [H1 H2].
  split.
  - apply H1. split; [discriminate|]. right; left; reflexivity.
  - apply H2; [discriminate|]. right; reflexivity.
Defined.

(** C2.  Whenever the page shows a fetched playbook, its run button is
    enabled exactly when the playbook's delete timestamp is 0 and the
    permission hook grants the current user run-create on that playbook. *)
Theorem run_button_enabled_iff
    (env : Env) (st : State) (v : PageView) (p : PlaybookWithChecklist) :
  Playbook env st = RenderPage v →
  playbook st = Some p →
  (button_disabled (runButton v) = false
   ↔ delete_at p = 0%Z ∧ useHasPlaybookPermission env RunCreate (Some p) = true).
Proof.
  unfold Playbook. intros Hv Hp. rewrite Hp in Hv. simpl in Hv.
  destruct (String.eqb (fetchingState st) _); [discriminate|].
  destruct (String.eqb (fetchingState st) _); [discriminate|].
  injection Hv as <-. simpl.
  rewrite negb_false_iff, andb_true_iff, negb_involutive, Z.eqb_eq.
  reflexivity.
Qed.

Lemma run_button_enabled_iff_witness :
  ∃ v, Playbook sample_env (mounted (sample_server 0) sample_env) = RenderPage v
       ∧ playbook (mounted (sample_server 0) sample_env) = Some (sample_playbook 0)
       ∧ button_disabled (runButton v) = false.
Proof.
  eexists. split; [reflexivity|]. split; [reflexivity|].
  apply (run_button_enabled_iff sample_env (mounted (sample_server 0) sample_env)
           _ (sample_playbook 0) eq_refl eq_refl).
  split; reflexivity.
Defined.

(** ** User actions on the rendered page *)

(** What the page renders when a playbook is held and the fetching state
    is neither loading nor not-found. *)
Lemma Playbook_page_inv (env : Env) (st : State) (v : PageView) :
  Playbook env st = RenderPage v →
  ∃ p, playbook st = Some p
       ∧ archiveMenuItem v
         = (if Z.eqb (delete_at p) 0
            then Some (setArchiveModalOpen true) else None)
       ∧ archivedBadge v = negb (Z.eqb (delete_at p) 0)
       ∧ followButton_disabled v = negb (Z.eqb (delete_at p) 0)
       ∧ autoFollowCheckbox v
         = {| testId := "auto-follow-runs"; text := "Auto-follow runs";
              checked := isFollowed st;
              disabled := negb (Z.eqb (delete_at p) 0);
              onChange := changeFollowing (Some p) (currentUserId env) |}
       ∧ onClick (runButton v) = runPlaybook (Some p) (getTeam env (team_id p))
       ∧ modal v
         = (if archiveModalOpen st
            then Some {| onConfirm := fun st' =>
                           setArchiveModalOpen false (archiveCallback (Some p) st');
                         onCancel := setArchiveModalOpen false |}
            else None).
Proof.
  unfold Playbook, useConfirmPlaybookArchiveModal.
  destruct (String.eqb (fetchingState st) _); [discriminate|].
  destruct (playbook st) as [p|]; [|discriminate].
  destruct (String.eqb (fetchingState st) _); [discriminate|].
  intros [= <-]. exists p. simpl.
  destruct (Z.eqb (delete_at p) 0); simpl; repeat split; reflexivity.
Qed.

(** No user action changes the playbook held or the fetching state. *)
Lemma step_keeps_playbook (env : Env) (a : UserAction) (st : State) :
  playbook (step env a st) = playbook st
  ∧ fetchingState (step env a st) = fetchingState st.
Proof.
  unfold step. destruct (Playbook env st) as [| |v] eqn:Hv; auto.
  destruct (Playbook_page_inv env st v Hv)
    as (p & Hp & Harch & _ & _ & Hcb & Hrun & Hmodal).
  destruct a; simpl.
  - rewrite Harch. destruct (Z.eqb _ _); simpl; auto.
  - rewrite Hmodal. destruct (archiveModalOpen st); simpl; auto.
  - rewrite Hmodal. destruct (archiveModalOpen st); simpl; auto.
  - unfold CheckboxInput_click. rewrite Hcb. simpl.
    destruct (negb _); auto. unfold changeFollowing.
    destruct (negb (String.eqb _ _)); simpl; auto.
  - unfold Button_click. destruct (button_disabled _); auto.
    rewrite Hrun. unfold runPlaybook.
    destruct (negb (String.eqb _ _)); simpl; auto.
    destruct (getTeam env (team_id p)); simpl; auto.
  - auto.
Qed.

(** On a page whose playbook is archived, a user action makes no follow
    or unfollow call; if the archive modal is closed it stays closed and
    no archive call is made. *)
Lemma step_archived (env : Env) (a : UserAction) (st : State)
    (p : PlaybookWithChecklist) :
  playbook st = Some p → delete_at p ≠ 0%Z →
  List.filter is_follow_call (effects (step env a st))
  = List.filter is_follow_call (effects st)
  ∧ (archiveModalOpen st = false →
     archiveModalOpen (step env a st) = false
     ∧ List.filter is_archive_call (effects (step env a st))
       = List.filter is_archive_call (effects st)).
Proof.
  intros Hp Hdel. unfold step.
  destruct (Playbook env st) as [| |v] eqn:Hv; auto.
  destruct (Playbook_page_inv env st v Hv)
    as (p' & Hp' & Harch & _ & _ & Hcb & Hrun & Hmodal).
  rewrite Hp in Hp'. injection Hp' as <-.
  apply Z.eqb_neq in Hdel. rewrite Hdel in *.
  destruct a; simpl.
  - rewrite Harch. simpl. auto.
  - rewrite Hmodal. destruct (archiveModalOpen st) eqn:Hm; simpl.
    + split; [drop_calls|discriminate].
    + auto.
  - rewrite Hmodal. destruct (archiveModalOpen st) eqn:Hm; simpl; auto.
  - unfold CheckboxInput_click. rewrite Hcb. simpl. auto.
  - unfold Button_click. destruct (button_disabled _); auto.
    rewrite Hrun. unfold runPlaybook.
    destruct (negb (String.eqb _ _)); auto.
    destruct (getTeam env (team_id p));
      (split; [|intros Hm; split; [exact Hm|]]; drop_calls).
  - unfold goToPlaybooks.
    split; [|intros Hm; split; [exact Hm|]]; drop_calls.
Qed.

Lemma run_archived (env : Env) (actions : list UserAction) :
  ∀ (st : State) (p : PlaybookWithChecklist),
    playbook st = Some p → delete_at p ≠ 0%Z →
    List.filter is_follow_call (effects (run env actions st))
    = List.filter is_follow_call (effects st)
    ∧ (archiveModalOpen st = false →
       List.filter is_archive_call (effects (run env actions st))
       = List.filter is_archive_call (effects st)).
Proof.
  induction actions as [|a rest IH]; intros st p Hp Hdel; simpl.
  - auto.
  - destruct (step_archived env a st p Hp Hdel) as [Hf Ha].
    destruct (step_keeps_playbook env a st) as [Hk _].
    rewrite <- Hk in Hp.
    destruct (IH (step env a st) p Hp Hdel) as [IHf IHa].
    split.
    + rewrite IHf. exact Hf.
    + intros Hm. destruct (Ha Hm) as [Hm' Ha'].
      rewrite (IHa Hm'). exact Ha'.
Qed.

(** C9.  On a page that shows an archived playbook (delete timestamp not
    0) the auto-follow checkbox and the button around it are disabled; a
    click on the checkbox changes nothing, and no sequence of user actions
    on the page makes a follow or an unfollow call. *)
Theorem auto_follow_disabled_when_archived
    (env : Env) (st : State) (v : PageView) (p : PlaybookWithChecklist) :
  Playbook env st = RenderPage v →
  playbook st = Some p →
  delete_at p ≠ 0%Z →
  disabled (autoFollowCheckbox v) = true
  ∧ followButton_disabled v = true
  ∧ CheckboxInput_click (autoFollowCheckbox v) st = st
  ∧ ∀ actions : list UserAction,
      List.filter is_follow_call (effects (run env actions st))
      = List.filter is_follow_call (effects st).
Proof.
  intros Hv Hp Hdel.
  destruct (Playbook_page_inv env st v Hv)
    as (p' & Hp' & _ & _ & Hbtn & Hcb & _ & _).
  rewrite Hp in Hp'. injection Hp' as <-.
  pose proof Hdel as Hb. apply Z.eqb_neq in Hb.
  rewrite Hb in Hbtn, Hcb. simpl in Hbtn, Hcb.
  repeat split.
  - rewrite Hcb. reflexivity.
  - exact Hbtn.
  - unfold CheckboxInput_click. rewrite Hcb. reflexivity.
  - intros actions. exact (proj1 (run_archived env actions st p Hp Hdel)).
Qed.

Lemma auto_follow_disabled_when_archived_witness :
  ∃ v, Playbook sample_env (mounted (sample_server 1667260800000) sample_env)
       = RenderPage v
       ∧ disabled (autoFollowCheckbox v) = true
       ∧ List.filter is_follow_call
           (effects (run sample_env [ToggleAutoFollow; ClickRun; ToggleAutoFollow]
                       (mounted (sample_server 1667260800000) sample_env)))
         = [].
Proof.
  eexists. split; [reflexivity|].
  pose proof (auto_follow_disabled_when_archived sample_env
                (mounted (sample_server 1667260800000) sample_env) _
                (sample_playbook 1667260800000) eq_refl eq_refl
                ltac:(discriminate)) as (H1 & _ & _ & H4).
  split; [exact H1 | exact (H4 _)].
Defined.




(** On a page that shows a playbook that is not archived, the menu item
    followed by a confirmation does make the archive call, for that
    playbook. *)
Example archive_flow_not_archived :
  List.filter is_archive_call
    (effects (run sample_env [ClickArchivePlaybook; ConfirmArchive]
                (mounted (sample_server 0) sample_env)))
  = [archivePlaybook "pb1"].
Proof. reflexivity. Qed.

(** A click on the enabled auto-follow checkbox of a playbook that is not
    archived makes the unfollow call when the user follows it. *)
Example follow_flow_not_archived :
  List.filter is_follow_call
    (effects (run sample_env [ToggleAutoFollow]
                (mounted (sample_server 0) sample_env)))
  = [autoUnfollowPlaybook "pb1" "u1"].
Proof. reflexivity. Qed.

End PlaybookSpec.

(** * More on the filter bar: how the setters compose and what the bar
      shows afterwards *)

Module FiltersMore.
Import FiltersBar FilterMutations FiltersFetch.

Lemma spread_with_commute (o : gmap string JsVal) (k1 k2 : string) (v1 v2 : JsVal) :
  k1 ≠ k2 →
  spread_with (spread_with o k2 v2) k1 v1 = spread_with (spread_with o k1 v1) k2 v2.
Proof.
  intros Hne. unfold spread_with. apply map_eq. intros j.
  rewrite !lookup_insert. repeat case_decide; congruence.
Qed.

Lemma spread_with_overwrite (o : gmap string JsVal) (k : string) (v1 v2 : JsVal) :
  spread_with (spread_with o k v2) k v1 = spread_with o k v1.
Proof.
  unfold spread_with. apply map_eq. intros j.
  rewrite !lookup_insert. repeat case_decide; congruence.
Qed.

Lemma State_eq (st1 st2 : State) :
  fetchParams st1 = fetchParams st2 →
  profileSelectorToggle st1 = profileSelectorToggle st2 →
  teamSelectorToggle st1 = teamSelectorToggle st2 →
  playbookSelectorToggle st1 = playbookSelectorToggle st2 →
  st1 = st2.
Proof. destruct st1, st2; simpl; intros; congruence. Qed.

(** The value a mutation writes to its target. *)
Lemma mutate_eq (m : Mutation) (st : State) :
  ∃ v, ∀ st', mutate m st' = setFetchParams (fun o => spread_with o (target m) v) st'.
Proof. destruct m; simpl; eexists; reflexivity. Qed.

(** X1.  Two filter setters with different targets commute: applied in
    either order they leave the same fetch parameters and toggles. *)
Theorem mutations_commute (m1 m2 : Mutation) (st : State) :
  target m1 ≠ target m2 →
  mutate m1 (mutate m2 st) = mutate m2 (mutate m1 st).
Proof.
  intros Hne.
  destruct (mutate_eq m1 st) as [v1 H1], (mutate_eq m2 st) as [v2 H2].
  rewrite !H1, !H2. apply State_eq; try reflexivity.
  simpl. apply spread_with_commute. exact Hne.
Qed.

Lemma mutations_commute_witness :
  target (TeamId (Some "t2")) ≠ target (MyRunsOnly (Some true))
  ∧ mutate (TeamId (Some "t2")) (mutate (MyRunsOnly (Some true)) sample_state)
    = mutate (MyRunsOnly (Some true)) (mutate (TeamId (Some "t2")) sample_state).
Proof.
  assert (H : target (TeamId (Some "t2")) ≠ target (MyRunsOnly (Some true)))
    by discriminate.
  exact (conj H (mutations_commute _ _ sample_state H)).
Defined.

(** X2.  Of two filter setters with the same target the later one wins:
    the state is what the later one alone gives.  In particular a setter
    applied twice gives what it gives once. *)
Theorem mutation_last_wins (m1 m2 : Mutation) (st : State) :
  target m1 = target m2 →
  mutate m1 (mutate m2 st) = mutate m1 st.
Proof.
  intros He.
  destruct (mutate_eq m1 st) as [v1 H1], (mutate_eq m2 st) as [v2 H2].
  rewrite !H1, !H2. apply State_eq; try reflexivity.
  simpl. rewrite <- He. apply spread_with_overwrite.
Qed.

Lemma mutation_last_wins_witness :
  target (TeamId None) = target (TeamId (Some "t2"))
  ∧ mutate (TeamId None) (mutate (TeamId (Some "t2")) sample_state)
    = mutate (TeamId None) sample_state.
Proof.
  exact (conj eq_refl (mutation_last_wins (TeamId None) (TeamId (Some "t2"))
                         sample_state eq_refl)).
Defined.

Lemma get_spread_target (o : gmap string JsVal) (k : string) (v : JsVal) :
  k ≠ "page" → get (spread_with o k v) k = v.
Proof.
  intros Hk. unfold get. rewrite FiltersSpec.spread_with_target by exact Hk.
  reflexivity.
Qed.

(** X3.  The bar shows what was set: rendered again after a setter ran,
    the "My runs only" and "Include finished" boxes are checked exactly
    for the value the setter was called with, the search box defaults to
    the term set, and a rendered selector shows the id chosen in it
    (undefined when the choice was cleared). *)
Theorem bar_shows_what_was_set (props : Props) (st : State) :
  (∀ c, checked (myRunsOnlyCheckbox (Filters props (setMyRunsOnly c st)))
        = opt_true c)
  ∧ (∀ c cb, finishedRunsCheckbox (Filters props (setFinishedRuns c st)) = Some cb →
             checked cb = opt_true c)
  ∧ (∀ term, search_default (searchInput (Filters props (setSearchTerm term st)))
             = VStr term)
  ∧ (∀ sel i x, selection sel (Filters props (mutate (choose sel i) st)) = Some x →
                x = of_opt_string i).
Proof.
  split; [|split; [|split]].
  - intros c. unfold Filters; simpl.
    rewrite get_spread_target by discriminate.
    destruct (opt_true c); reflexivity.
  - intros c cb. unfold Filters; simpl.
    destruct (negb _); [|discriminate]. intros [= <-]. simpl.
    rewrite get_spread_target by discriminate.
    destruct (opt_true c); reflexivity.
  - intros term. unfold Filters; simpl.
    apply get_spread_target. discriminate.
  - intros sel i x. destruct sel; unfold Filters; simpl.
    + intros [= <-]. rewrite get_spread_target by discriminate.
      destruct i; reflexivity.
    + destruct (_ && _); [|discriminate]. simpl. intros [= <-].
      apply get_spread_target. discriminate.
    + destruct (negb _); [|discriminate]. simpl. intros [= <-].
      apply get_spread_target. discriminate.
Qed.

Lemma bar_shows_what_was_set_witness :
  selection TeamSelector
    (Filters sample_props (mutate (choose TeamSelector (Some "t2")) sample_state))
  = Some (VStr "t2")
  ∧ VStr "t2" = of_opt_string (Some "t2").
Proof.
  split; [reflexivity|].
  apply (proj2 (proj2 (proj2 (bar_shows_what_was_set sample_props sample_state)))
           TeamSelector (Some "t2") (VStr "t2")).
  reflexivity.
Defined.


(** X5.  After a click on a selector's reset control the bar, rendered
    again, shows that selector (when it is rendered) with the id
    undefined and without a reset control: the control cannot be clicked
    twice in a row. *)
Theorem reset_control_gone_after_reset
    (props : Props) (st : State) (sel : Selector) (h : Handler) :
  resetControl sel (Filters props st) = Some h →
  resetControl sel (Filters props (h st)) = None
  ∧ selection sel (Filters props (h st)) = Some VUndefined.
Proof.
  destruct sel; unfold Filters; simpl.
  - destruct (truthy _); [|discriminate]. intros [= <-]. simpl.
    rewrite get_spread_target by discriminate. split; reflexivity.
  - destruct (_ && _); [|discriminate]. simpl.
    destruct (truthy _); [|discriminate]. intros [= <-]. simpl.
    rewrite get_spread_target by discriminate. split; reflexivity.
  - destruct (negb _); [|discriminate]. simpl.
    destruct (truthy _); [|discriminate]. intros [= <-]. simpl.
    rewrite get_spread_target by discriminate. split; reflexivity.
Qed.

Lemma reset_control_gone_after_reset_witness :
  resetControl OwnerSelector (Filters sample_props sample_state)
    = Some (resetOwner false)
  ∧ resetControl OwnerSelector (Filters sample_props (resetOwner false sample_state))
    = None.
Proof.
  split; [reflexivity|].
  exact (proj1 (reset_control_gone_after_reset sample_props sample_state
                  OwnerSelector (resetOwner false) eq_refl)).
Defined.

(** X6.  A click on a selector's reset control changes nothing but that
    selector's id, [page] and that selector's toggle: every other property
    of the fetch parameters and the toggles of the other two selectors
    stay as they were. *)
Theorem reset_control_frame
    (props : Props) (st : State) (sel : Selector) (h : Handler) :
  resetControl sel (Filters props st) = Some h →
  (∀ k, k ≠ idField sel → k ≠ "page" →
        fetchParams (h st) !! k = fetchParams st !! k)
  ∧ (∀ sel', sel' ≠ sel → toggleOf sel' (h st) = toggleOf sel' st).
Proof.
  destruct sel; unfold Filters; simpl.
  - destruct (truthy _); [|discriminate]. intros [= <-]. simpl. split.
    + intros k Hk Hp. apply FiltersSpec.spread_with_other; assumption.
    + intros [] Hne; try reflexivity. contradiction.
  - destruct (_ && _); [|discriminate]. simpl.
    destruct (truthy _); [|discriminate]. intros [= <-]. simpl. split.
    + intros k Hk Hp. apply FiltersSpec.spread_with_other; assumption.
    + intros [] Hne; try reflexivity. contradiction.
  - destruct (negb _); [|discriminate]. simpl.
    destruct (truthy _); [|discriminate]. intros [= <-]. simpl. split.
    + intros k Hk Hp. apply FiltersSpec.spread_with_other; assumption.
    + intros [] Hne; try reflexivity. contradiction.
Qed.

Lemma reset_control_frame_witness :
  resetControl PlaybookSelector (Filters sample_props sample_state)
    = Some (resetPlaybook false)
  ∧ fetchParams (resetPlaybook false sample_state) !! "team_id" = Some (VStr "t1")
  ∧ teamSelectorToggle (resetPlaybook false sample_state) = true.
Proof.
  split; [reflexivity|].
  pose proof (reset_control_frame sample_props sample_state PlaybookSelector
                (resetPlaybook false) eq_refl) as [H1 H2].
  split.
  - rewrite (H1 "team_id") by discriminate. reflexivity.
  - exact (H2 TeamSelector ltac:(discriminate)).
Defined.

(** X7.  When the owners call resolves, [fetchOwners] resolves to a list
    of the same length and order in which every entry is the owner it
    came from with [id] set to that owner's [user_id] and all other
    properties kept; when the call rejects, [fetchOwners] rejects. *)
Theorem fetchOwners_adds_id (cl : Client) (fp : gmap string JsVal) :
  (∀ owners,
     fetchOwnersInTeam_answer cl (or_empty (get fp "team_id"))
       = PlaybookPage.Resolved owners →
     ∃ res, snd (fetchOwners cl fp) = PlaybookPage.Resolved res
            ∧ length res = length owners
            ∧ ∀ (i : nat) c, owners !! i = Some c →
                ∃ c', res !! i = Some c'
                      ∧ get c' "id" = get c "user_id"
                      ∧ ∀ k, k ≠ "id" → c' !! k = c !! k)
  ∧ (fetchOwnersInTeam_answer cl (or_empty (get fp "team_id"))
       = PlaybookPage.Rejected →
     snd (fetchOwners cl fp) = PlaybookPage.Rejected).
Proof.
  unfold fetchOwners; simpl. split.
  - intros owners ->. eexists. split; [reflexivity|]. split.
    + apply length_fmap.
    + intros i c Hc. eexists. split.
      * rewrite list_lookup_fmap, Hc. reflexivity.
      * split.
        -- unfold get at 1. rewrite lookup_insert_eq. reflexivity.
        -- intros k Hk. apply lookup_insert_ne. congruence.
  - intros ->. reflexivity.
Qed.

Lemma fetchOwners_adds_id_witness :
  ∃ res, snd (fetchOwners sample_client sample_params) = PlaybookPage.Resolved res
         ∧ length res = 2.
Proof.
  destruct (proj1 (fetchOwners_adds_id sample_client sample_params)
              sample_owners eq_refl) as (res & H1 & H2 & _).
  exists res. split; [exact H1 | exact H2].
Defined.

(** X8.  The option lists are asked for the team of the filter: after the
    team filter was set to a string that is not empty, both [fetchOwners]
    and [fetchPlaybooks] ask for that team; after it was cleared (a reset,
    or the empty string) both ask for the empty string.  The playbooks
    request carries the same team in its parameters and sorts by title.  A
    setter with another target does not change what is asked. *)
Theorem option_lists_follow_team_filter (cl : Client) (st : State) :
  (∀ i : option string,
     let fp := fetchParams (setTeamId i st) in
     let t := VStr (default "" i) in
     fst (fetchOwners cl fp) = fetchOwnersInTeam t
     ∧ ∃ params, fst (fetchPlaybooks cl fp) = clientFetchPlaybooks t params
                 ∧ params !! "team_id" = Some t
                 ∧ params !! "sort" = Some (VStr "title")
                 ∧ ∀ k, k ≠ "team_id" → k ≠ "sort" → params !! k = None)
  ∧ (∀ m : Mutation, target m ≠ "team_id" →
       fst (fetchOwners cl (fetchParams (mutate m st)))
         = fst (fetchOwners cl (fetchParams st))
       ∧ fst (fetchPlaybooks cl (fetchParams (mutate m st)))
         = fst (fetchPlaybooks cl (fetchParams st))).
Proof.
  split.
  - intros i fp t. subst fp t. unfold fetchOwners, fetchPlaybooks; simpl.
    rewrite get_spread_target by discriminate.
    assert (Ht : or_empty (of_opt_string i) = VStr (default "" i)).
    { destruct i as [s|]; simpl; [|reflexivity].
      unfold or_empty; simpl. destruct (String.eqb_spec s ""); simpl; congruence. }
    rewrite Ht. split; [reflexivity|].
    eexists. split; [reflexivity|]. split; [|split].
    + rewrite lookup_insert_ne by discriminate. apply lookup_insert_eq.
    + apply lookup_insert_eq.
    + intros k Hk Hs. rewrite !lookup_insert_ne by congruence. apply lookup_empty.
  - intros m Hm. destruct (FiltersSpec.mutate_spread m st) as [v Hv].
    unfold fetchOwners, fetchPlaybooks, get. rewrite Hv.
    rewrite FiltersSpec.spread_with_other
      by (try discriminate; congruence).
    split; reflexivity.
Qed.

Lemma option_lists_follow_team_filter_witness :
  fst (fetchOwners sample_client (fetchParams (resetTeam true sample_state)))
  = fetchOwnersInTeam (VStr "").
Proof.
  exact (proj1 (proj1 (option_lists_follow_team_filter sample_client sample_state) None)).
Defined.

End FiltersMore.

(** * More on the playbook detail page *)

Module PlaybookMore.
Import PlaybookPage PlaybookCalls.

(** X9.  Whatever the page held before, once a fetch for a route with a
    playbook id has completed the page is never blank: it shows the
    fetched playbook, with the follow box as the server answered, when
    both fetches resolved and a playbook came back, and it redirects to
    the plugin error page in every other case. *)
Theorem fetch_render_any_state (srv : Server) (env : Env) (st : State) :
  playbookId env ≠ "" →
  match fetchPlaybook_answer srv (playbookId env),
        isPlaybookFollower_answer srv (playbookId env) (currentUserId env) with
  | Resolved (Some p), Resolved b =>
      ∃ v, Playbook env (fetchData srv env st) = RenderPage v
           ∧ playbook (fetchData srv env st) = Some p
           ∧ titleText v = title p
           ∧ checked (autoFollowCheckbox v) = b
  | _, _ => Playbook env (fetchData srv env st) = Redirect (pluginErrorUrl PLAYBOOKS)
  end.
Proof.
  intros Hne.
  destruct (fetchPlaybook_answer srv (playbookId env)) as [p|] eqn:Hf.
  - destruct (isPlaybookFollower_answer srv (playbookId env) (currentUserId env))
      as [b|] eqn:Hg.
    + rewrite (PlaybookSpec.fetchData_resolved srv env st p b Hne Hf Hg).
      destruct p as [p|].
      * eexists. unfold Playbook. simpl. split; [reflexivity|]. repeat split.
      * reflexivity.
    + rewrite (PlaybookSpec.fetchData_follower_rejected srv env st p Hne Hf Hg).
      unfold Playbook. simpl. destruct p; destruct (playbook st); reflexivity.
  - rewrite (PlaybookSpec.fetchData_fetch_rejected srv env st Hne Hf).
    unfold Playbook. simpl. destruct (playbook st); reflexivity.
Qed.

Lemma fetch_render_any_state_witness :
  Playbook sample_env
    (fetchData failing_server sample_env (mounted (sample_server 0) sample_env))
  = Redirect (pluginErrorUrl PLAYBOOKS).
Proof.
  exact (fetch_render_any_state failing_server sample_env
           (mounted (sample_server 0) sample_env) ltac:(discriminate)).
Defined.

(** X10.  The fetch makes no call when the route has no playbook id;
    otherwise it asks for the playbook and, only if that resolved, for the
    current user's follow status of the same playbook, and nothing else.
    It never touches the link-copied flag or the archive modal, and a
    fetch that throws keeps the playbook held before. *)
Theorem fetchData_calls (srv : Server) (env : Env) (st : State) :
  effects (fetchData srv env st)
  = (effects st
     ++ (if String.eqb (playbookId env) "" then []
         else match fetchPlaybook_answer srv (playbookId env) with
              | Rejected => [clientFetchPlaybook (playbookId env)]
              | Resolved _ =>
                  [clientFetchPlaybook (playbookId env);
                   clientFetchIsPlaybookFollower (playbookId env) (currentUserId env)]
              end))%list
  ∧ playbookLinkCopied (fetchData srv env st) = playbookLinkCopied st
  ∧ archiveModalOpen (fetchData srv env st) = archiveModalOpen st
  ∧ (fetchingState (fetchData srv env st) = notFound FetchingStateType →
     playbook (fetchData srv env st) = playbook st).
Proof.
  destruct (String.eqb_spec (playbookId env) "") as [He|Hne].
  { rewrite PlaybookSpec.fetchData_no_id by exact He.
    rewrite app_nil_r. repeat split. }
  destruct (fetchPlaybook_answer srv (playbookId env)) as [p|] eqn:Hf.
  - destruct (isPlaybookFollower_answer srv (playbookId env) (currentUserId env))
      as [b|] eqn:Hg.
    + rewrite (PlaybookSpec.fetchData_resolved srv env st p b Hne Hf Hg). simpl.
      rewrite <- app_assoc. repeat split. discriminate.
    + rewrite (PlaybookSpec.fetchData_follower_rejected srv env st p Hne Hf Hg). simpl.
      rewrite <- app_assoc. repeat split.
  - rewrite (PlaybookSpec.fetchData_fetch_rejected srv env st Hne Hf). simpl.
    repeat split.
Qed.

Lemma fetchData_calls_witness :
  playbook (fetchData failing_server sample_env (mounted (sample_server 0) sample_env))
  = Some (sample_playbook 0).
Proof.
  exact (proj2 (proj2 (proj2
           (fetchData_calls failing_server sample_env
              (mounted (sample_server 0) sample_env))))
           eq_refl).
Defined.

(** ** User actions, one after the other *)

Lemma run_keeps_playbook (env : Env) (actions : list UserAction) :
  ∀ st, playbook (run env actions st) = playbook st
        ∧ fetchingState (run env actions st) = fetchingState st.
Proof.
  induction actions as [|a rest IH]; intros st; simpl; [auto|].
  destruct (IH (step env a st)) as [H1 H2].
  destruct (PlaybookSpec.step_keeps_playbook env a st) as [H3 H4].
  split; congruence.
Qed.

(** What a rendered page shows of the playbook depends on the playbook
    and the fetching state only. *)
Lemma rendered_transfer (env : Env) (st st' : State) (v : PageView) :
  Playbook env st = RenderPage v →
  playbook st' = playbook st →
  fetchingState st' = fetchingState st →
  ∃ v', Playbook env st' = RenderPage v'
        ∧ titleText v' = titleText v
        ∧ accessIconClass v' = accessIconClass v
        ∧ membersCount v' = membersCount v
        ∧ archivedBadge v' = archivedBadge v
        ∧ is_Some (archiveMenuItem v') = is_Some (archiveMenuItem v)
        ∧ disabled (autoFollowCheckbox v') = disabled (autoFollowCheckbox v)
        ∧ runButton v' = runButton v.
Proof.
  unfold Playbook, useConfirmPlaybookArchiveModal. intros Hv Hp Hf.
  rewrite Hp, Hf.
  destruct (String.eqb (fetchingState st) _); [discriminate|].
  destruct (playbook st) as [p|]; [|discriminate].
  destruct (String.eqb (fetchingState st) _); [discriminate|].
  injection Hv as <-. eexists. split; [reflexivity|]. simpl.
  destruct (Z.eqb (delete_at p) 0); simpl; repeat split.
Qed.

(** X11.  No user action on the rendered page makes it go away or change
    what it shows of the playbook: after any sequence of actions the page
    is still rendered for the same playbook, with the same title, access
    icon, member count, archived badge, archive entry, and the same run
    button. *)
Theorem page_stays_rendered
    (env : Env) (st : State) (v : PageView) (actions : list UserAction) :
  Playbook env st = RenderPage v →
  playbook (run env actions st) = playbook st
  ∧ ∃ v', Playbook env (run env actions st) = RenderPage v'
          ∧ titleText v' = titleText v
          ∧ accessIconClass v' = accessIconClass v
          ∧ membersCount v' = membersCount v
          ∧ archivedBadge v' = archivedBadge v
          ∧ is_Some (archiveMenuItem v') = is_Some (archiveMenuItem v)
          ∧ disabled (autoFollowCheckbox v') = disabled (autoFollowCheckbox v)
          ∧ runButton v' = runButton v.
Proof.
  intros Hv. destruct (run_keeps_playbook env actions st) as [Hp Hf].
  split; [exact Hp|].
  exact (rendered_transfer env st _ v Hv Hp Hf).
Qed.

Lemma page_stays_rendered_witness :
  playbook (run sample_env [ClickArchivePlaybook; ConfirmArchive; ClickBack]
              (mounted (sample_server 0) sample_env))
  = Some (sample_playbook 0).
Proof.
  exact (proj1 (page_stays_rendered sample_env (mounted (sample_server 0) sample_env)
                  _ [ClickArchivePlaybook; ConfirmArchive; ClickBack] eq_refl)).
Defined.

(** One toggle of the enabled auto-follow box. *)
Lemma step_toggle_live (env : Env) (st : State) (v : PageView)
    (p : PlaybookWithChecklist) :
  Playbook env st = RenderPage v →
  playbook st = Some p →
  delete_at p = 0%Z →
  id p ≠ "" →
  step env ToggleAutoFollow st
  = setIsFollowed (negb (isFollowed st))
      (call (if isFollowed st
             then autoUnfollowPlaybook (id p) (currentUserId env)
             else autoFollowPlaybook (id p) (currentUserId env)) st).
Proof.
  intros Hv Hp Hdel Hid. unfold step. rewrite Hv.
  destruct (PlaybookSpec.Playbook_page_inv env st v Hv)
    as (p' & Hp' & _ & _ & _ & Hcb & _ & _).
  rewrite Hp in Hp'. injection Hp' as <-.
  simpl. unfold CheckboxInput_click. rewrite Hcb. simpl.
  rewrite Hdel. simpl. unfold changeFollowing.
  apply String.eqb_neq in Hid. rewrite Hid. simpl.
  destruct (isFollowed st); reflexivity.
Qed.

(** X13.  On a page that shows a playbook that is not archived and has an
    id, a click on the auto-follow box flips the follow flag and makes
    exactly one call, for that playbook and the current user: unfollow if
    the flag was set, follow if it was not.  A second click brings the
    flag back and makes the opposite call. *)
Theorem toggle_follow_live (env : Env) (st : State) (v : PageView)
    (p : PlaybookWithChecklist) :
  Playbook env st = RenderPage v →
  playbook st = Some p →
  delete_at p = 0%Z →
  id p ≠ "" →
  let follow := autoFollowPlaybook (id p) (currentUserId env) in
  let unfollow := autoUnfollowPlaybook (id p) (currentUserId env) in
  isFollowed (step env ToggleAutoFollow st) = negb (isFollowed st)
  ∧ effects (step env ToggleAutoFollow st)
    = (effects st ++ [if isFollowed st then unfollow else follow])%list
  ∧ isFollowed (run env [ToggleAutoFollow; ToggleAutoFollow] st) = isFollowed st
  ∧ effects (run env [ToggleAutoFollow; ToggleAutoFollow] st)
    = (effects st ++ (if isFollowed st then [unfollow; follow]
                      else [follow; unfollow]))%list.
Proof.
  intros Hv Hp Hdel Hid follow unfollow. subst follow unfollow.
  pose proof (step_toggle_live env st v p Hv Hp Hdel Hid) as H1.
  destruct (PlaybookSpec.step_keeps_playbook env ToggleAutoFollow st) as [Hk Hf].
  destruct (rendered_transfer env st _ v Hv Hk Hf) as (v' & Hv' & _).
  rewrite Hp in Hk.
  pose proof (step_toggle_live env _ v' p Hv' Hk Hdel Hid) as H2.
  simpl run. rewrite H2, H1. simpl.
  rewrite negb_involutive, <- app_assoc.
  destruct (isFollowed st); simpl; repeat split.
Qed.

Lemma toggle_follow_live_witness :
  effects (run sample_env [ToggleAutoFollow; ToggleAutoFollow]
             (mounted (sample_server 0) sample_env))
  = (effects (mounted (sample_server 0) sample_env)
     ++ [autoUnfollowPlaybook "pb1" "u1"; autoFollowPlaybook "pb1" "u1"])%list.
Proof.
  exact (proj2 (proj2 (proj2
           (toggle_follow_live sample_env (mounted (sample_server 0) sample_env)
              _ (sample_playbook 0) eq_refl eq_refl eq_refl ltac:(discriminate))))).
Defined.

(** X14.  A click on the enabled run button of a playbook with an id
    first reports the click.  If the store has the playbook's team it then
    navigates to the run page of that playbook under the team's name; if
    the store has no such team the handler ends after the report and does
    not navigate.  Nothing else changes. *)
Theorem run_click_enabled (env : Env) (st : State) (v : PageView)
    (p : PlaybookWithChecklist) :
  Playbook env st = RenderPage v →
  playbook st = Some p →
  button_disabled (runButton v) = false →
  id p ≠ "" →
  let reported :=
    call (telemetryEventForPlaybook (id p) "playbook_dashboard_run_clicked") st in
  step env ClickRun st
  = match getTeam env (team_id p) with
    | Some t =>
        call (navigateToUrl ("/" ++ name t ++ "/_playbooks/" ++ id p ++ "/run"))
          reported
    | None => reported
    end.
Proof.
  intros Hv Hp Hen Hid. unfold step. rewrite Hv.
  destruct (PlaybookSpec.Playbook_page_inv env st v Hv)
    as (p' & Hp' & _ & _ & _ & _ & Hrun & _).
  rewrite Hp in Hp'. injection Hp' as <-.
  simpl. unfold Button_click. rewrite Hen, Hrun. unfold runPlaybook.
  apply String.eqb_neq in Hid. rewrite Hid. simpl.
  destruct (getTeam env (team_id p)); reflexivity.
Qed.

Lemma run_click_enabled_witness :
  effects (step sample_env ClickRun (mounted (sample_server 0) sample_env))
  = [clientFetchPlaybook "pb1"; clientFetchIsPlaybookFollower "pb1" "u1";
     telemetryEventForPlaybook "pb1" "playbook_dashboard_run_clicked";
     navigateToUrl "/one/_playbooks/pb1/run"].
Proof.
  rewrite (run_click_enabled sample_env (mounted (sample_server 0) sample_env)
             _ (sample_playbook 0) eq_refl eq_refl eq_refl ltac:(discriminate)).
  reflexivity.
Defined.

(** X15.  Every user action makes only its own calls, for the playbook
    shown: an action appends to the log either nothing or one of the call
    sequences of that action: archive then leave for a confirmation,
    follow or unfollow for the auto-follow box, for the run button the
    report followed by the navigation when the store has the playbook's
    team and the report alone when it has not, leave for the back arrow,
    and never anything for opening or cancelling the archive dialog. *)
Theorem step_calls (env : Env) (a : UserAction) (st : State)
    (p : PlaybookWithChecklist) :
  playbook st = Some p →
  effects (step env a st) = effects st
  ∨ ∃ new, In new (calls_of env p a)
           ∧ effects (step env a st) = (effects st ++ new)%list.
Proof.
  intros Hp. unfold step.
  destruct (Playbook env st) as [| |v] eqn:Hv; auto.
  destruct (PlaybookSpec.Playbook_page_inv env st v Hv)
    as (p' & Hp' & Harch & _ & _ & Hcb & Hrun & Hmodal).
  rewrite Hp in Hp'. injection Hp' as <-.
  destruct a; simpl.
  - rewrite Harch. destruct (Z.eqb _ _); simpl; auto.
  - rewrite Hmodal. destruct (archiveModalOpen st); simpl; auto.
    right. eexists. split; [left; reflexivity|].
    rewrite <- app_assoc. reflexivity.
  - rewrite Hmodal. destruct (archiveModalOpen st); simpl; auto.
  - unfold CheckboxInput_click. rewrite Hcb. simpl.
    destruct (negb (Z.eqb _ _)); auto. unfold changeFollowing.
    destruct (negb (String.eqb _ _)); auto.
    right. destruct (negb (isFollowed st)); simpl; eexists; split;
      [left; reflexivity | reflexivity | right; left; reflexivity | reflexivity].
  - unfold Button_click. destruct (button_disabled _); auto.
    rewrite Hrun. unfold runPlaybook.
    destruct (negb (String.eqb _ _)); auto.
    right. eexists. split; [left; reflexivity|].
    destruct (getTeam env (team_id p)); simpl;
      rewrite <- ?app_assoc; reflexivity.
  - right. eexists. split; [left; reflexivity|]. reflexivity.
Qed.

Lemma step_calls_witness :
  effects (step sample_env ClickBack (mounted (sample_server 0) sample_env))
  = effects (mounted (sample_server 0) sample_env)
  ∨ ∃ new, In new (calls_of sample_env (sample_playbook 0) ClickBack)
           ∧ effects (step sample_env ClickBack (mounted (sample_server 0) sample_env))
             = (effects (mounted (sample_server 0) sample_env) ++ new)%list.
Proof.
  exact (step_calls sample_env ClickBack (mounted (sample_server 0) sample_env)
           (sample_playbook 0) eq_refl).
Defined.

Lemma filter_archive_calls_of (env : Env) (p : PlaybookWithChecklist)
    (a : UserAction) (new : list Effect) :
  In new (calls_of env p a) →
  List.filter is_archive_call new
  = if is_confirm a then [archivePlaybook (id p)] else [].
Proof.
  destruct a; simpl; intros H;
    repeat (destruct H as [<-|H];
            [try destruct (getTeam env (team_id p)); reflexivity|]);
    contradiction.
Qed.

Lemma filter_run_calls_of (env : Env) (p : PlaybookWithChecklist)
    (a : UserAction) (new : list Effect) :
  a ≠ ClickRun →
  In new (calls_of env p a) →
  List.filter is_run_call new = [].
Proof.
  destruct a; simpl; intros Ha H; try contradiction;
    repeat (destruct H as [<-|H]; [reflexivity|]); contradiction.
Qed.

(** X16.  The page archives no playbook but the one it shows, and only
    on a confirmation: after any sequence of user actions the archive
    calls in the log are those that were there before followed by calls
    for the id of the playbook shown, at most one per confirmation in the
    sequence. *)
Theorem archive_calls_only_shown (env : Env) (actions : list UserAction) :
  ∀ (st : State) (p : PlaybookWithChecklist),
    playbook st = Some p →
    ∃ n : nat, (n ≤ length (List.filter is_confirm actions))%nat
         ∧ List.filter is_archive_call (effects (run env actions st))
           = (List.filter is_archive_call (effects st)
              ++ repeat (archivePlaybook (id p)) n)%list.
Proof.
  induction actions as [|a rest IH]; intros st p Hp; simpl.
  - exists 0. split; [lia|]. simpl. rewrite app_nil_r. reflexivity.
  - destruct (PlaybookSpec.step_keeps_playbook env a st) as [Hk _].
    rewrite Hp in Hk. destruct (IH (step env a st) p Hk) as (n & Hn & Hrun).
    rewrite Hrun.
    destruct (step_calls env a st p Hp) as [He|(new & Hin & He)]; rewrite He.
    + exists n. split; [|reflexivity].
      destruct (is_confirm a); simpl; lia.
    + rewrite List.filter_app, (filter_archive_calls_of env p a new Hin).
      destruct (is_confirm a); simpl.
      * exists (S n). split; [lia|]. rewrite <- app_assoc. reflexivity.
      * exists n. split; [lia|]. rewrite app_nil_r. reflexivity.
Qed.

Lemma archive_calls_only_shown_witness :
  ∃ n : nat, (n ≤ 1)%nat
       ∧ List.filter is_archive_call
           (effects (run sample_env [ClickArchivePlaybook; ConfirmArchive; ClickRun]
                       (mounted (sample_server 0) sample_env)))
         = ([] ++ repeat (archivePlaybook "pb1") n)%list.
Proof.
  exact (archive_calls_only_shown sample_env
           [ClickArchivePlaybook; ConfirmArchive; ClickRun]
           (mounted (sample_server 0) sample_env) (sample_playbook 0) eq_refl).
Defined.

(** X17.  While the run button is disabled (the playbook is archived or
    the user lacks the permission) no sequence of user actions on the page
    reports a run click or navigates to a run page. *)
Theorem run_never_when_disabled (env : Env) (actions : list UserAction) :
  ∀ (st : State) (v : PageView),
    Playbook env st = RenderPage v →
    button_disabled (runButton v) = true →
    List.filter is_run_call (effects (run env actions st))
    = List.filter is_run_call (effects st).
Proof.
  induction actions as [|a rest IH]; intros st v Hv Hdis; simpl; [reflexivity|].
  destruct (PlaybookSpec.step_keeps_playbook env a st) as [Hk Hf].
  destruct (rendered_transfer env st _ v Hv Hk Hf)
    as (v' & Hv' & _ & _ & _ & _ & _ & _ & Hbtn).
  rewrite (IH (step env a st) v' Hv') by (rewrite Hbtn; exact Hdis).
  destruct (PlaybookSpec.Playbook_page_inv env st v Hv) as (p & Hp & _).
  assert (Hdec : a = ClickRun ∨ a ≠ ClickRun)
    by (destruct a; auto; right; discriminate).
  destruct Hdec as [->|Ha].
  - unfold step. rewrite Hv. simpl. unfold Button_click. rewrite Hdis. reflexivity.
  - destruct (step_calls env a st p Hp) as [He|(new & Hin & He)]; rewrite He.
    + reflexivity.
    + rewrite List.filter_app, (filter_run_calls_of env p a new Ha Hin).
      apply app_nil_r.
Qed.

Lemma run_never_when_disabled_witness :
  List.filter is_run_call
    (effects (run sample_env [ClickRun; ToggleAutoFollow; ClickRun]
                (mounted (sample_server 1667260800000) sample_env)))
  = List.filter is_run_call
      (effects (mounted (sample_server 1667260800000) sample_env)).
Proof.
  exact (run_never_when_disabled sample_env [ClickRun; ToggleAutoFollow; ClickRun]
           (mounted (sample_server 1667260800000) sample_env) _ eq_refl eq_refl).
Defined.

(** X18.  A playbook without an id: the auto-follow box and the run
    button do nothing at all, because their handlers test the id, whereas
    the archive entry followed by a confirmation still calls the client,
    with the empty id, because its callback tests the playbook only. *)
Theorem empty_id_guards (env : Env) (st : State) (p : PlaybookWithChecklist) :
  playbook st = Some p →
  id p = "" →
  step env ToggleAutoFollow st = st
  ∧ step env ClickRun st = st
  ∧ ∀ v, Playbook env st = RenderPage v → delete_at p = 0%Z →
         effects (run env [ClickArchivePlaybook; ConfirmArchive] st)
         = (effects st ++ [archivePlaybook ""; navigateToPluginUrl "/playbooks"])%list.
Proof.
  intros Hp Hid. unfold step.
  destruct (Playbook env st) as [| |v] eqn:Hv;
    try (repeat split; intros; discriminate).
  destruct (PlaybookSpec.Playbook_page_inv env st v Hv)
    as (p' & Hp' & Harch & _ & _ & Hcb & Hrun & _).
  rewrite Hp in Hp'. injection Hp' as <-.
  split; [|split].
  - simpl. unfold CheckboxInput_click. rewrite Hcb. simpl.
    destruct (negb (Z.eqb _ _)); [reflexivity|].
    unfold changeFollowing. rewrite Hid. reflexivity.
  - simpl. unfold Button_click. destruct (button_disabled _); [reflexivity|].
    rewrite Hrun. unfold runPlaybook. rewrite Hid. reflexivity.
  - intros v0 [= <-] Hdel. simpl run. unfold step at 2. rewrite Hv. simpl.
    rewrite Harch, Hdel. simpl.
    unfold step, Playbook, useConfirmPlaybookArchiveModal. simpl.
    rewrite Hp.
    unfold Playbook in Hv. rewrite Hp in Hv.
    destruct (String.eqb (fetchingState st) _); [discriminate|].
    destruct (String.eqb (fetchingState st) _); [discriminate|].
    simpl. rewrite Hid, <- app_assoc. reflexivity.
Qed.

Lemma empty_id_guards_witness :
  step sample_env ToggleAutoFollow
    (setPlaybook (Some {| id := ""; title := "Draft"; team_id := "t1"; public := false;
                          members := []; delete_at := 0 |})
       (mounted (sample_server 0) sample_env))
  = setPlaybook (Some {| id := ""; title := "Draft"; team_id := "t1"; public := false;
                         members := []; delete_at := 0 |})
      (mounted (sample_server 0) sample_env).
Proof.
  exact (proj1 (empty_id_guards sample_env
                  (setPlaybook
                     (Some {| id := ""; title := "Draft"; team_id := "t1";
                              public := false; members := []; delete_at := 0 |})
                     (mounted (sample_server 0) sample_env))
                  {| id := ""; title := "Draft"; team_id := "t1";
                     public := false; members := []; delete_at := 0 |}
                  eq_refl eq_refl)).
Defined.

End PlaybookMore.
